(** * meshio: format registry, format inference, validation and dispatch

    A shallow embedding of [src/meshio/_helpers.py].  Python dictionaries
    with string keys are finite maps ([gmap string _]); the cell blocks of
    a mesh keep their insertion order and are an association list.
    Exceptions are the [Raise] results of a small error monad, and a call
    into a format backend (none of which is part of this module) is the
    value the dispatcher returns: the backend, the function and the
    arguments it is called with. *)

From Stdlib Require Import ZArith Ascii String DecimalString DecimalNat.
From stdpp Require Import base option list strings gmap sorting.

Local Open Scope Z_scope.
Local Open Scope stdpp_scope.

(** ** Exceptions and results *)

Inductive type_error :=
| DuplicateKeyword (key : string)   (* a keyword given twice in one call *)
| NotPathLike                       (* pathlib.Path(obj), obj no path *)
| MultipleValues.                   (* an option named like a parameter
                                       that the call has filled already *)

(** [WriteError ""] stands for [WriteError()], raised without a message.
    [ValueError lit] is the error of [int(lit)]. *)
Inductive exn :=
| ReadError (msg : string)
| WriteError (msg : string)
| KeyError (msg : string)
| ValueError (lit : string)
| TypeError (why : type_error).

Inductive result (A : Type) :=
| Ok (a : A)
| Raise (e : exn).
Arguments Ok {A} a.
Arguments Raise {A} e.

#[global] Instance result_ret : MRet result := fun _ a => Ok a.

#[global] Instance result_bind : MBind result := fun _ _ k r =>
  match r with
  | Ok a => k a
  | Raise e => Raise e
  end.

(** ** Strings the way Python slices and splits them *)

Module Str.

(** [s[:n]] *)
Fixpoint take (n : nat) (s : string) : string :=
  match n, s with
  | S n', String a s' => String a (take n' s')
  | _, _ => ""
  end.

(** [s[n:]] *)
Fixpoint drop (n : nat) (s : string) : string :=
  match n, s with
  | O, _ => s
  | S n', String _ s' => drop n' s'
  | S _, "" => ""
  end.

(** [s.endswith(suf)] *)
Fixpoint endswith (suf s : string) : bool :=
  bool_decide (s = suf) ||
  match s with
  | "" => false
  | String _ s' => endswith suf s'
  end.

(** [s.lstrip(c)] for a single character [c] *)
Fixpoint lstrip (c : ascii) (s : string) : string :=
  match s with
  | String a s' => if bool_decide (a = c) then lstrip c s' else s
  | "" => ""
  end.

(** [s.split(sep)] for a single character [sep]; never empty. *)
Fixpoint split (sep : ascii) (s : string) : list string :=
  match s with
  | "" => [""]
  | String a s' =>
      if bool_decide (a = sep) then "" :: split sep s'
      else match split sep s' with
           | w :: ws => String a w :: ws
           | [] => [String a ""]
           end
  end.

(** ["".join(l)] *)
Definition join (l : list string) : string := foldr String.app "" l.

(** [repr] of a [str] without quotes, backslashes or control characters
    (all identifiers of the registry are such), and [repr] of a list. *)
Definition repr (s : string) : string := "'" +:+ s +:+ "'".

Fixpoint commas (l : list string) : string :=
  match l with
  | [] => ""
  | [x] => x
  | x :: l' => x +:+ ", " +:+ commas l'
  end.

Definition repr_list (l : list string) : string :=
  "[" +:+ commas (repr <$> l) +:+ "]".

(** [sorted(l)] on strings: Python orders [str] by code point. *)
Definition sorted (l : list string) : list string := merge_sort String.le l.

End Str.

(** ** [pathlib]: the name and the suffixes of a POSIX path *)

(** The [filename] argument of [read] and [write]: a [str] naming a path;
    some other object that is no path (a buffer); or an [os.PathLike]
    object, of which [__fspath__()] gives the path and [str()] gives what
    [format] prints. *)
Inductive file_arg :=
| PathStr (path : string)
| BufferObj (id : nat)
| PathLike (fspath shown : string).

Module pathlib.

(** [pathlib.Path(filename)] takes a [str] or an [os.PathLike] object;
    any other object is refused.  The path is kept as the string it was
    made from. *)
Definition Path (filename : file_arg) : result string :=
  match filename with
  | PathStr path => Ok path
  | PathLike fspath _ => Ok fspath
  | BufferObj _ => Raise (TypeError NotPathLike)
  end.

(** The last component of the path; empty components and [.] do not
    count as components. *)
Definition name (path : string) : string :=
  default "" (last (filter (fun c => c <> "" /\ c <> ".") (Str.split "/" path))).

(** [PurePath.suffixes]: the dotted suffixes of the name, leftmost
    first; none for a name that ends with a dot; leading dots of the
    name are not separators. *)
Definition suffixes (path : string) : list string :=
  let n := name path in
  if Str.endswith "." n then []
  else (fun s => "." +:+ s) <$> tail (Str.split "." (Str.lstrip "." n)).

End pathlib.

(** What [format] prints for a [filename] whose path is [path]: the
    string itself, or the [str()] of the [os.PathLike] object. *)
Definition format_filename (filename : file_arg) (path : string) : string :=
  match filename with
  | PathLike _ shown => shown
  | _ => path
  end.

(** ** The tables of the registry *)

Definition input_filetypes : list string :=
  [ "abaqus"; "ansys"; "cgns"; "dolfin-xml"; "wkt"; "exodus"; "flac3d";
    "gmsh-ascii"; "gmsh-binary"; "mdpa"; "med"; "medit"; "moab"; "nastran";
    "neuroglancer"; "permas"; "ply-ascii"; "ply-binary"; "obj"; "off";
    "stl-ascii"; "stl-binary"; "vtk-ascii"; "vtk-binary"; "vtu-ascii";
    "vtu-binary"; "xdmf" ].

Definition output_filetypes : list string :=
  [ "abaqus"; "ansys-ascii"; "ansys-binary"; "cgns"; "dolfin-xml"; "wkt";
    "exodus"; "flac3d"; "gmsh2-ascii"; "gmsh2-binary"; "gmsh4-ascii";
    "gmsh4-binary"; "mdpa"; "med"; "medit"; "moab"; "nastran";
    "neuroglancer"; "obj"; "off"; "permas"; "ply-ascii"; "ply-binary";
    "stl-ascii"; "stl-binary"; "svg"; "tetgen"; "vtk-ascii"; "vtk-binary";
    "vtu-ascii"; "vtu-binary"; "xdmf"; "xdmf-binary"; "xdmf-hdf";
    "xdmf-xml" ].

Definition extension_items : list (string * string) :=
  [ (".bdf", "nastran"); (".cgns", "cgns"); (".e", "exodus");
    (".ex2", "exodus"); (".exo", "exodus"); (".f3grid", "flac3d");
    (".fem", "nastran"); (".med", "med"); (".mesh", "medit");
    (".msh", "gmsh4-binary"); (".nas", "nastran"); (".xml", "dolfin-xml");
    (".post", "permas"); (".post.gz", "permas"); (".dato", "permas");
    (".dato.gz", "permas"); (".h5m", "moab"); (".obj", "obj");
    (".off", "off"); (".ply", "ply-binary"); (".stl", "stl-binary");
    (".vtu", "vtu-binary"); (".vtk", "vtk-binary"); (".wkt", "wkt");
    (".xdmf", "xdmf"); (".xmf", "xdmf"); (".inp", "abaqus");
    (".mdpa", "mdpa"); (".svg", "svg"); (".node", "tetgen");
    (".ele", "tetgen") ].

Definition _extension_to_filetype : gmap string string :=
  list_to_map extension_items.
Global Arguments _extension_to_filetype : simpl never.

(** ** Format inference *)

(** One turn of the loop: [ext = suffix + ext], and [out] is overwritten
    when [ext] is a key of the table. *)
Definition scan_step (st : string * option string) (suffix : string)
  : string * option string :=
  let ext := suffix +:+ st.1 in
  (ext, match _extension_to_filetype !! ext with
        | Some ft => Some ft
        | None => st.2
        end).

Definition scan (suffixes : list string) : string * option string :=
  foldl scan_step ("", None) (reverse suffixes).

Definition _filetype_from_path (path : string) : result string :=
  let '(ext, out) := scan (pathlib.suffixes path) in
  match out with
  | None =>
      Raise (ReadError
        ("Could not deduce file format from extension '" +:+ ext +:+ "'."))
  | Some ft => Ok ft
  end.


(** ** The built-in [int] on a [str]

    Characters are code points below 256.  [int] skips white space at
    both ends, takes an optional sign and then decimal digits, where one
    underscore may stand between two digits. *)

Module builtins.

Definition is_space (c : ascii) : bool :=
  Ascii.is_space c || bool_decide (c = "133"%char) || bool_decide (c = "160"%char).

Fixpoint lstrip_space (s : string) : string :=
  match s with
  | String a s' => if is_space a then lstrip_space s' else s
  | "" => ""
  end.

Definition strip (s : string) : string :=
  String.rev (lstrip_space (String.rev (lstrip_space s))).

(** The digits that follow a first digit, [acc] being the value so far. *)
Fixpoint digits (acc : Z) (s : string) : option Z :=
  match s with
  | "" => Some acc
  | String c s' =>
      match Ascii.is_nat c with
      | Some d => digits (10 * acc + Z.of_nat d) s'
      | None =>
          if bool_decide (c = "_"%char) then
            match s' with
            | String c' s'' =>
                match Ascii.is_nat c' with
                | Some d => digits (10 * acc + Z.of_nat d) s''
                | None => None
                end
            | "" => None
            end
          else None
      end
  end.

Definition unsigned (s : string) : option Z :=
  match s with
  | String c s' =>
      match Ascii.is_nat c with
      | Some d => digits (Z.of_nat d) s'
      | None => None
      end
  | "" => None
  end.

(** [int(s)]: [None] is the [ValueError] that [int] raises. *)
Definition int (s : string) : option Z :=
  match strip s with
  | String "+" s' => unsigned s'
  | String "-" s' => Z.opp <$> unsigned s'
  | s' => unsigned s'
  end.

End builtins.

(** [str(n)] of a natural number, the [N] of a key [polygonN]. *)
Definition str_of_nat (n : nat) : string :=
  NilEmpty.string_of_uint (Nat.to_uint n).

(** ** The mesh *)

(** Modelled from the spec: the class [Mesh] of [meshio._mesh] and the
    two-dimensional arrays it holds are not part of this module.  An array
    is its shape and its entries; the dispatcher reads [shape[1]] only. *)
Record ndarray := {
  shape : nat * nat;
  entries : list Z
}.

Record Mesh := {
  points : ndarray;
  cells : list (string * ndarray);
  point_data : list (string * ndarray);
  cell_data : list (string * list (string * ndarray));
  field_data : list (string * ndarray)
}.

(** ** Options and backends *)

Inductive pyval :=
| PyNone
| PyBool (b : bool)
| PyInt (z : Z)
| PyStr (s : string).

Inductive backend :=
| abaqus | ansys | cgns | dolfin | exodus | flac3d | gmsh | h5m | mdpa
| med | medit | nastran | neuroglancer | obj | off | permas | ply | stl
| svg | tetgen | vtk | vtu | wkt | xdmf.

(** [backend.read(filename)] *)
Record read_call := ReadCall {
  rc_backend : backend;
  rc_filename : file_arg
}.

(** [backend.write(filename, mesh, *args, **kwargs)] *)
Record write_call := WriteCall {
  wc_backend : backend;
  wc_filename : file_arg;
  wc_mesh : Mesh;
  wc_args : list pyval;
  wc_kwargs : gmap string pyval
}.

Abbreviation writer :=
  (file_arg -> Mesh -> gmap string pyval -> result write_call).

(** [b.write], called as [writer(filename, mesh, **kwargs)]: the call of
    the backend with these arguments; what the parameters of the backend
    make of them is not part of this module. *)
Definition direct (b : backend) : writer :=
  fun f m kwargs => Ok (WriteCall b f m [] kwargs).

(** [lambda f, m, **kwargs: b.write(f, m, *args, **kwargs, key=v)], called
    as [writer(filename, mesh, **kwargs)].  The parameters [f] and [m] are
    filled by position, so Python refuses options named [f] or [m]; in the
    body it refuses a call that gives [key] twice. *)
Definition fixing (b : backend) (args : list pyval) (key : string) (v : pyval)
  : writer :=
  fun f m kwargs =>
    match kwargs !! "f", kwargs !! "m" with
    | None, None =>
        match kwargs !! key with
        | Some _ => Raise (TypeError (DuplicateKeyword key))
        | None => Ok (WriteCall b f m args (<[key := v]> kwargs))
        end
    | _, _ => Raise (TypeError MultipleValues)
    end.

(** [lambda f, m, **kwargs: b.write(f, m, key=v)], called in the same
    way: options named [f] or [m] are refused, all others are dropped. *)
Definition only (b : backend) (key : string) (v : pyval) : writer :=
  fun f m kwargs =>
    match kwargs !! "f", kwargs !! "m" with
    | None, None => Ok (WriteCall b f m [] {[ key := v ]})
    | _, _ => Raise (TypeError MultipleValues)
    end.

Definition reader_items : list (string * backend) :=
  [ ("ansys", ansys); ("ansys-ascii", ansys); ("ansys-binary", ansys);
    ("cgns", cgns);
    ("gmsh", gmsh); ("gmsh-ascii", gmsh); ("gmsh-binary", gmsh);
    ("gmsh2", gmsh); ("gmsh2-ascii", gmsh); ("gmsh2-binary", gmsh);
    ("gmsh4", gmsh); ("gmsh4-ascii", gmsh); ("gmsh4-binary", gmsh);
    ("flac3d", flac3d); ("wkt", wkt); ("med", med); ("medit", medit);
    ("nastran", nastran); ("neuroglancer", neuroglancer);
    ("dolfin-xml", dolfin); ("permas", permas); ("moab", h5m);
    ("obj", obj); ("off", off);
    ("ply", ply); ("ply-ascii", ply); ("ply-binary", ply);
    ("stl", stl); ("stl-ascii", stl); ("stl-binary", stl);
    ("tetgen", tetgen);
    ("vtu-ascii", vtu); ("vtu-binary", vtu);
    ("vtk-ascii", vtk); ("vtk-binary", vtk);
    ("xdmf", xdmf); ("exodus", exodus);
    ("abaqus", abaqus);
    ("mdpa", mdpa) ].

Definition format_to_reader : gmap string backend := list_to_map reader_items.
Global Arguments format_to_reader : simpl never.

Definition writer_items : list (string * writer) :=
  [ ("moab", direct h5m);
    ("ansys-ascii", fixing ansys [] "binary" (PyBool false));
    ("ansys-binary", fixing ansys [] "binary" (PyBool true));
    ("wkt", direct wkt);
    ("gmsh2-ascii", fixing gmsh [PyStr "2"] "binary" (PyBool false));
    ("gmsh2-binary", fixing gmsh [PyStr "2"] "binary" (PyBool true));
    ("gmsh4-ascii", fixing gmsh [PyStr "4"] "binary" (PyBool false));
    ("gmsh4-binary", fixing gmsh [PyStr "4"] "binary" (PyBool true));
    ("med", direct med);
    ("medit", direct medit);
    ("dolfin-xml", direct dolfin);
    ("neuroglancer", direct neuroglancer);
    ("obj", direct obj);
    ("off", direct off);
    ("permas", direct permas);
    ("ply-ascii", fixing ply [] "binary" (PyBool false));
    ("ply-binary", fixing ply [] "binary" (PyBool true));
    ("stl-ascii", fixing stl [] "binary" (PyBool false));
    ("stl-binary", fixing stl [] "binary" (PyBool true));
    ("tetgen", direct tetgen);
    ("vtu-ascii", fixing vtu [] "binary" (PyBool false));
    ("vtu-binary", fixing vtu [] "binary" (PyBool true));
    ("vtu", fixing vtu [] "binary" (PyBool true));
    ("vtk-ascii", fixing vtk [] "binary" (PyBool false));
    ("vtk-binary", fixing vtk [] "binary" (PyBool true));
    ("vtk", fixing vtk [] "binary" (PyBool true));
    ("xdmf", direct xdmf);
    ("xdmf-binary", only xdmf "data_format" (PyStr "Binary"));
    ("xdmf-hdf", only xdmf "data_format" (PyStr "HDF"));
    ("xdmf-xml", only xdmf "data_format" (PyStr "XML"));
    ("xdmf3", direct xdmf);
    ("xdmf3-binary", only xdmf "data_format" (PyStr "Binary"));
    ("xdmf3-hdf", only xdmf "data_format" (PyStr "HDF"));
    ("xdmf3-xml", only xdmf "data_format" (PyStr "XML"));
    ("abaqus", direct abaqus);
    ("exodus", direct exodus);
    ("mdpa", direct mdpa);
    ("svg", direct svg);
    ("nastran", direct nastran);
    ("flac3d", direct flac3d);
    ("cgns", direct cgns) ].

Definition _writer_map : gmap string writer := list_to_map writer_items.
Global Arguments _writer_map : simpl never.

(** [list(_writer_map.keys())], in the order of the dictionary. *)
Definition _writer_map_keys : list string := writer_items.*1.

(** ** The dispatcher *)

(** [not file_format] *)
Definition falsy (file_format : option string) : bool :=
  match file_format with
  | None => true
  | Some ff => bool_decide (ff = "")
  end.

Section Dispatcher.

(** What this module imports and does not define: [is_buffer] of
    [meshio._files], called with the object and a mode; the file system,
    asked whether a path exists; the table [num_nodes_per_cell] of
    [meshio._common]. *)
Context (is_buffer : file_arg -> string -> bool)
        (path_exists : string -> bool)
        (num_nodes_per_cell : gmap string nat).

Definition read (filename : file_arg) (file_format : option string)
  : result read_call :=
  '(file_format, msg) ←
    (if is_buffer filename "r" then
       match file_format with
       | None => Raise (ReadError "File format must be given if buffer is used")
       | Some ff =>
           if bool_decide (ff = "tetgen") then
             Raise (ReadError "tetgen format is spread across multiple files, and so cannot be read from a buffer")
           else Ok (ff, "Unknown file format '" +:+ ff +:+ "'")
       end
     else
       path ← pathlib.Path filename;
       if negb (path_exists path) then
         Raise (ReadError
           ("File " +:+ format_filename filename path +:+ " not found."))
       else
         ff ← (if falsy file_format then _filetype_from_path path
               else Ok (default "" file_format));
         Ok (ff, "Unknown file format '" +:+ ff +:+ "' of '" +:+
                 format_filename filename path +:+ "'."));
  match format_to_reader !! file_format with
  | None => Raise (ReadError msg)
  | Some b => Ok (ReadCall b filename)
  end.

(** The first statement of [write]: the format identifier that the
    writer is looked up with. *)
Definition write_format (filename : file_arg) (file_format : option string)
  : result string :=
  if is_buffer filename "r" then
    match file_format with
    | None =>
        Raise (WriteError "File format must be supplied if `filename` is a buffer")
    | Some ff =>
        if bool_decide (ff = "tetgen") then
          Raise (WriteError "tetgen format is spread across multiple files, and so cannot be written to a buffer")
        else Ok ff
    end
  else
    path ← pathlib.Path filename;
    if falsy file_format then _filetype_from_path path
    else Ok (default "" file_format).

(** The body of the loop over [mesh.cells.items()]. *)
Definition check_block (key : string) (value : ndarray) : result () :=
  if bool_decide (Str.take 7 key = "polygon") then
    match builtins.int (Str.drop 7 key) with
    | None => Raise (ValueError (Str.drop 7 key))
    | Some n =>
        if bool_decide (Z.of_nat (shape value).2 ≠ n) then Raise (WriteError "")
        else Ok ()
    end
  else
    match num_nodes_per_cell !! key with
    | Some n =>
        if bool_decide ((shape value).2 ≠ n) then Raise (WriteError "")
        else Ok ()
    | None => Ok ()
    end.

Fixpoint check_cells (items : list (string * ndarray)) : result () :=
  match items with
  | [] => Ok ()
  | (key, value) :: items' =>
      _ ← check_block key value; check_cells items'
  end.

Definition write (filename : file_arg) (mesh : Mesh)
    (file_format : option string) (kwargs : gmap string pyval)
  : result write_call :=
  file_format ← write_format filename file_format;
  writer ←
    match _writer_map !! file_format with
    | Some w => Ok w
    | None =>
        Raise (KeyError ("Unknown format '" +:+ file_format +:+
                         "'. Pick one of " +:+
                         Str.repr_list (Str.sorted _writer_map_keys)))
    end;
  _ ← check_cells (cells mesh);
  writer filename mesh kwargs.

(** Modelled from the spec: the constructor of [Mesh] keeps the points and
    the cells it is given; point, cell and field data that are not given
    are empty. *)
Definition Mesh_init (points : ndarray) (cells : list (string * ndarray))
    (point_data : option (list (string * ndarray)))
    (cell_data : option (list (string * list (string * ndarray))))
    (field_data : option (list (string * ndarray))) : Mesh :=
  {| points := points; cells := cells;
     point_data := default [] point_data;
     cell_data := default [] cell_data;
     field_data := default [] field_data |}.

(** [numpy.asarray] of an array is that array. *)
Definition asarray (a : ndarray) : ndarray := a.

Definition write_points_cells (filename : file_arg) (points : ndarray)
    (cells : list (string * ndarray))
    (point_data : option (list (string * ndarray)))
    (cell_data : option (list (string * list (string * ndarray))))
    (field_data : option (list (string * ndarray)))
    (file_format : option string) (kwargs : gmap string pyval)
  : result write_call :=
  let points := asarray points in
  let cells := (fun kv => (kv.1, asarray kv.2)) <$> cells in
  let mesh := Mesh_init points cells point_data cell_data field_data in
  write filename mesh file_format kwargs.

End Dispatcher.

(** ** A concrete environment, for examples

    Modelled from the spec: [is_buffer] holds of the buffers and of no
    path; the cell-shape table maps ["triangle"] to 3 nodes.  No file
    exists in [no_files]. *)
Definition buffers_only (filename : file_arg) (mode : string) : bool :=
  match filename with
  | BufferObj _ => true
  | PathStr _ | PathLike _ _ => false
  end.

(** An [is_buffer] that accepts the buffers with an even number only. *)
Definition readable_only (filename : file_arg) (mode : string) : bool :=
  match filename with
  | BufferObj id => Nat.even id
  | PathStr _ | PathLike _ _ => false
  end.

Definition no_files (path : string) : bool := false.

Definition all_files (path : string) : bool := true.

Definition shapes : gmap string nat :=
  list_to_map [ ("line", 2%nat); ("triangle", 3%nat); ("quad", 4%nat);
                ("tetra", 4%nat) ].

Definition block (rows width : nat) : ndarray :=
  {| shape := (rows, width); entries := replicate (rows * width) 0 |}.

Definition mesh_of (cs : list (string * ndarray)) : Mesh :=
  {| points := block 3 2; cells := cs; point_data := [];
     cell_data := []; field_data := [] |}.

Definition triangle_mesh : Mesh := mesh_of [("triangle", block 1 3)].

(** The lookup of a key in the items of a dictionary display; the
    dictionaries of this module repeat no key. *)
Fixpoint assoc {A} (k : string) (l : list (string * A)) : option A :=
  match l with
  | [] => None
  | (k', v) :: l' => if bool_decide (k' = k) then Some v else assoc k l'
  end.

(** * Properties *)

(** A decidable closed proposition, settled by evaluation. *)
Ltac by_evaluation := apply (bool_decide_unpack _); vm_compute; exact I.

Lemma lookup_list_to_map {A} (k : string) (l : list (string * A)) :
  (list_to_map l : gmap string A) !! k = assoc k l.
Proof.
  induction l as [|[k' v] l IH]; [done|].
  cbn [list_to_map foldr assoc]. rewrite lookup_insert.
  by case_decide; case_bool_decide.
Qed.

Lemma is_Some_list_to_map {A} (k : string) (l : list (string * A)) :
  is_Some ((list_to_map l : gmap string A) !! k) <-> k ∈ l.*1.
Proof.
  rewrite <- not_eq_None_Some, <- (not_elem_of_list_to_map (M := gmap string)).
  destruct (decide (k ∈ l.*1)); tauto.
Qed.

(** The entry of a key in [_writer_map] or [format_to_reader], by
    evaluation; the writers are left as they are written in the table. *)
Ltac eval_lookup :=
  rewrite ?lookup_list_to_map;
  repeat match goal with
  | |- context [assoc ?k ?l] =>
      let v := eval lazy -[fixing direct only] in (assoc k l) in
      change (assoc k l) with v
  end.

(** ** Strings *)

Lemma string_app_assoc (s t u : string) : (s +:+ t) +:+ u = s +:+ (t +:+ u).
Proof.
  induction s as [|a s IH]; [done|].
  change (String a ((s +:+ t) +:+ u) = String a (s +:+ (t +:+ u))).
  by rewrite IH.
Qed.

Lemma join_cons (a : string) (l : list string) :
  Str.join (a :: l) = a +:+ Str.join l.
Proof. done. Qed.

Lemma endswith_app (suf s : string) : Str.endswith suf (s +:+ suf) = true.
Proof.
  induction s as [|a s IH].
  - change ("" +:+ suf) with suf.
    destruct suf; simpl; [done|]. by rewrite bool_decide_eq_true_2.
  - change (String a s +:+ suf) with (String a (s +:+ suf)). simpl.
    rewrite IH. apply orb_true_r.
Qed.

(** ** Format inference: the loop *)

Lemma extension_keys_NoDup : NoDup extension_items.*1.
Proof. by_evaluation. Qed.

Lemma extension_lookup (ext ft : string) :
  _extension_to_filetype !! ext = Some ft <-> (ext, ft) ∈ extension_items.
Proof.
  symmetry. apply (elem_of_list_to_map (M := gmap string)), extension_keys_NoDup.
Qed.

Lemma scan_nil : scan [] = ("", None).
Proof. done. Qed.

(** The leftmost suffix is the last one the loop sees. *)
Lemma scan_cons (a : string) (l : list string) :
  scan (a :: l) = scan_step (scan l) a.
Proof. unfold scan. by rewrite reverse_cons, foldl_snoc. Qed.

Lemma scan_ext (l : list string) : (scan l).1 = Str.join l.
Proof.
  induction l as [|a l IH]; [done|].
  rewrite scan_cons, join_cons. unfold scan_step. cbn [fst]. by rewrite IH.
Qed.

Lemma scan_out_cons (a : string) (l : list string) :
  (scan (a :: l)).2 =
  match _extension_to_filetype !! Str.join (a :: l) with
  | Some ft => Some ft
  | None => (scan l).2
  end.
Proof.
  rewrite scan_cons, join_cons. unfold scan_step. cbn [snd].
  by rewrite scan_ext.
Qed.

Lemma filetype_from_scan (path : string) :
  _filetype_from_path path =
  match (scan (pathlib.suffixes path)).2 with
  | Some ft => Ok ft
  | None =>
      Raise (ReadError
        ("Could not deduce file format from extension '" +:+
         Str.join (pathlib.suffixes path) +:+ "'."))
  end.
Proof.
  unfold _filetype_from_path. rewrite <- scan_ext.
  by destruct (scan (pathlib.suffixes path)) as [ext [ft|]].
Qed.

(** The recorded match is the one of the longest tail of the suffix list
    that is a key of the table. *)
Lemma scan_out_longest (l : list string) (ft : string) :
  (scan l).2 = Some ft <->
  exists l1 l2, l = l1 ++ l2 /\
    _extension_to_filetype !! Str.join l2 = Some ft /\
    forall l1' l2', l = l1' ++ l2' -> (length l2 < length l2')%nat ->
      _extension_to_filetype !! Str.join l2' = None.
Proof.
  induction l as [|a l IH].
  - split; [done|]. intros (l1 & l2 & Hl & Hft & _).
    symmetry in Hl. apply app_eq_nil in Hl as [_ ->]. done.
  - rewrite scan_out_cons.
    destruct (_extension_to_filetype !! Str.join (a :: l)) as [v|] eqn:Hv.
    + split.
      * intros [= ->]. exists [], (a :: l). split_and!; [done..|].
        intros l1' l2' Hl Hlen. apply (f_equal length) in Hl.
        rewrite length_app in Hl. lia.
      * intros (l1 & l2 & Hl & Hft & Hmax). destruct l1 as [|b l1].
        { simpl in Hl. subst l2. congruence. }
        specialize (Hmax [] (a :: l) eq_refl).
        rewrite Hmax in Hv; [done|].
        apply (f_equal length) in Hl. simpl in Hl. rewrite length_app in Hl.
        simpl. lia.
    + rewrite IH. split.
      * intros (l1 & l2 & -> & Hft & Hmax). exists (a :: l1), l2.
        split_and!; [done..|]. intros [|b l1'] l2' Hl Hlen.
        { simpl in Hl. by subst l2'. }
        injection Hl as -> Hl. by apply (Hmax l1').
      * intros (l1 & l2 & Hl & Hft & Hmax). destruct l1 as [|b l1].
        { simpl in Hl. subst l2. congruence. }
        injection Hl as -> ->. exists l1, l2. split_and!; [done..|].
        intros l1' l2' Hl Hlen. apply (Hmax (b :: l1')); [|done].
        by rewrite Hl.
Qed.

Lemma scan_out_None (l : list string) :
  (scan l).2 = None <->
  forall l1 l2, l = l1 ++ l2 -> _extension_to_filetype !! Str.join l2 = None.
Proof.
  induction l as [|a l IH].
  - split; [|done]. intros _ l1 l2 Hl.
    symmetry in Hl. apply app_eq_nil in Hl as [_ ->]. done.
  - rewrite scan_out_cons. split.
    + destruct (_extension_to_filetype !! Str.join (a :: l)) eqn:Hv; [done|].
      intros Hl [|b l1] l2 Heq.
      * simpl in Heq. by subst l2.
      * injection Heq as -> Heq. by apply (proj1 IH Hl l1).
    + intros Hall. rewrite (Hall [] (a :: l) eq_refl). apply IH.
      intros l1 l2 ->. by apply (Hall (a :: l1)).
Qed.

(** Once the accumulated suffix ends with [e] and every key of the table
    that ends with [e] maps to [ft], a recorded match [ft] stays. *)
Definition owns (e ft : string) : bool :=
  forallb (fun kv => implb (Str.endswith e kv.1) (bool_decide (kv.2 = ft)))
          extension_items.

Lemma owns_lookup (e ft s v : string) :
  owns e ft = true -> _extension_to_filetype !! (s +:+ e) = Some v -> v = ft.
Proof.
  intros Hown Hv%extension_lookup. unfold owns in Hown.
  rewrite forallb_forall in Hown.
  specialize (Hown _ (proj1 (list_elem_of_In _ _) Hv)). simpl in Hown.
  rewrite endswith_app in Hown. by apply bool_decide_eq_true in Hown.
Qed.

Lemma scan_sticky (e ft : string) (pre l : list string) :
  owns e ft = true ->
  (scan l).2 = Some ft -> (exists t, Str.join l = t +:+ e) ->
  (scan (pre ++ l)).2 = Some ft.
Proof.
  intros Hown Hl [t Ht]. 
  assert ((scan (pre ++ l)).2 = Some ft /\ exists t', Str.join (pre ++ l) = t' +:+ e)
    as [? _]; [|done].
  induction pre as [|a pre [IH [t' IHt]]]; [by eauto|].
  change ((a :: pre) ++ l) with (a :: (pre ++ l)).
  rewrite scan_out_cons, join_cons, IHt, <- string_app_assoc. split; [|by eauto].
  destruct (_extension_to_filetype !! _) as [v|] eqn:Hv; [|done].
  f_equal. by eapply owns_lookup.
Qed.

(** ** Format inference: the results *)

(** C1.  A path whose whole suffix chain is a key of the extension table
    infers the identifier the table gives for it.  The loop runs over all
    suffixes from the right and keeps the last match it records, which is
    the match of the longest chain of trailing suffixes that is a key.  A
    suffix list that ends with [.dato.gz] or with [.dato] infers
    [permas], whatever suffixes stand before. *)
Theorem infer_registered_extension (path : string) :
  (forall ft,
     _extension_to_filetype !! Str.join (pathlib.suffixes path) = Some ft ->
     _filetype_from_path path = Ok ft) /\
  (forall ft,
     _filetype_from_path path = Ok ft <->
     exists l1 l2, pathlib.suffixes path = l1 ++ l2 /\
       _extension_to_filetype !! Str.join l2 = Some ft /\
       forall l1' l2', pathlib.suffixes path = l1' ++ l2' ->
         (length l2 < length l2')%nat ->
         _extension_to_filetype !! Str.join l2' = None) /\
  (forall pre,
     pathlib.suffixes path = pre ++ [".dato"; ".gz"] \/
     pathlib.suffixes path = pre ++ [".dato"] ->
     _filetype_from_path path = Ok "permas").
Proof.
  rewrite filetype_from_scan. split_and!.
  - intros ft Hft. destruct (pathlib.suffixes path) as [|a l]; [done|].
    by rewrite scan_out_cons, Hft.
  - intros ft. rewrite <- scan_out_longest.
    destruct (scan (pathlib.suffixes path)).2 as [v|]; [|done].
    split; congruence.
  - intros pre [-> | ->].
    + rewrite (scan_sticky ".dato.gz" "permas"); [done..|]. by exists "".
    + rewrite (scan_sticky ".dato" "permas"); [done..|]. by exists "".
Qed.

Lemma infer_registered_extension_witness :
  _filetype_from_path "mesh.dato.gz" = Ok "permas" /\
  _filetype_from_path "mesh.dato" = Ok "permas" /\
  _filetype_from_path "run.1.vtk" = Ok "vtk-binary".
Proof.
  split_and!.
  - apply (proj1 (infer_registered_extension "mesh.dato.gz")).
    vm_compute. reflexivity.
  - apply (proj2 (proj2 (infer_registered_extension "mesh.dato")) []).
    right. vm_compute. reflexivity.
  - apply (proj1 (proj2 (infer_registered_extension "run.1.vtk"))).
    exists [".1"], [".vtk"]. split_and!; [vm_compute; reflexivity..|].
    intros l1' l2' Hl Hlen. vm_compute in Hl.
    destruct l1' as [|a l1']; [by subst l2'|].
    injection Hl as _ Hl. apply (f_equal length) in Hl.
    rewrite length_app in Hl. simpl in *. lia.
Defined.

(** C7.  When no chain of trailing suffixes of the path is a key of the
    extension table, inference raises a [ReadError] whose message quotes
    the whole accumulated suffix, as for [mesh.unknownext]; and these are
    the only paths on which inference fails. *)
Theorem infer_unregistered_extension (path : string) :
  ((forall l1 l2, pathlib.suffixes path = l1 ++ l2 ->
      _extension_to_filetype !! Str.join l2 = None) ->
   _filetype_from_path path =
   Raise (ReadError
     ("Could not deduce file format from extension '" +:+
      Str.join (pathlib.suffixes path) +:+ "'."))) /\
  (forall e, _filetype_from_path path = Raise e ->
     e = ReadError
       ("Could not deduce file format from extension '" +:+
        Str.join (pathlib.suffixes path) +:+ "'.") /\
     forall l1 l2, pathlib.suffixes path = l1 ++ l2 ->
       _extension_to_filetype !! Str.join l2 = None).
Proof.
  rewrite filetype_from_scan. split.
  - intros Hnone%scan_out_None. by rewrite Hnone.
  - intros e. destruct (scan (pathlib.suffixes path)).2 eqn:Hout; [done|].
    intros [= <-]. split; [done|]. by apply scan_out_None.
Qed.

Lemma infer_unregistered_extension_witness :
  _filetype_from_path "mesh.unknownext" =
  Raise (ReadError "Could not deduce file format from extension '.unknownext'.").
Proof.
  apply (proj1 (infer_unregistered_extension "mesh.unknownext")).
  intros l1 l2 Hl. vm_compute in Hl.
  destruct l1 as [|a [|b l1]]; simplify_eq; vm_compute; reflexivity.
Defined.

(** ** The lists of identifiers *)

Lemma reader_keys_NoDup : NoDup reader_items.*1.
Proof. by_evaluation. Qed.

Lemma reader_keys id :
  is_Some (format_to_reader !! id) <-> id ∈ reader_items.*1.
Proof. apply is_Some_list_to_map. Qed.

Lemma writer_keys_NoDup : NoDup _writer_map_keys.
Proof. by_evaluation. Qed.

Lemma writer_keys id :
  is_Some (_writer_map !! id) <-> id ∈ _writer_map_keys.
Proof. apply is_Some_list_to_map. Qed.

(** C9, amended.  Neither [input_filetypes] nor [output_filetypes] is in
    sorted order.  Each is free of duplicates and lists only identifiers
    that [read], respectively [write], dispatches on; [read] dispatches
    on twelve identifiers more than are listed and [write] on six more. *)
Theorem filetype_lists :
  let more_readers :=
    [ "ansys-ascii"; "ansys-binary"; "gmsh"; "gmsh2"; "gmsh2-ascii";
      "gmsh2-binary"; "gmsh4"; "gmsh4-ascii"; "gmsh4-binary"; "ply"; "stl";
      "tetgen" ] in
  let more_writers :=
    [ "vtu"; "vtk"; "xdmf3"; "xdmf3-binary"; "xdmf3-hdf"; "xdmf3-xml" ] in
  ~ Sorted String.le input_filetypes /\
  ~ Sorted String.le output_filetypes /\
  NoDup (input_filetypes ++ more_readers) /\
  NoDup (output_filetypes ++ more_writers) /\
  (forall id, is_Some (format_to_reader !! id) <->
              id ∈ input_filetypes \/ id ∈ more_readers) /\
  (forall id, is_Some (_writer_map !! id) <->
              id ∈ output_filetypes \/ id ∈ more_writers).
Proof.
  intros more_readers more_writers. split_and!; try by_evaluation.
  - intros id. rewrite reader_keys, <- elem_of_app.
    assert (reader_items.*1 ≡ₚ input_filetypes ++ more_readers) as ->
      by by_evaluation.
    done.
  - intros id. rewrite writer_keys, <- elem_of_app.
    assert (_writer_map_keys ≡ₚ output_filetypes ++ more_writers) as ->
      by by_evaluation.
    done.
Qed.

(** ** The dispatcher *)

Section Properties.

Context (is_buffer : file_arg -> string -> bool)
        (path_exists : string -> bool)
        (num_nodes_per_cell : gmap string nat).

Lemma write_unfold filename mesh file_format kwargs :
  write is_buffer num_nodes_per_cell filename mesh file_format kwargs =
  match write_format is_buffer filename file_format with
  | Raise e => Raise e
  | Ok ff =>
      match _writer_map !! ff with
      | None =>
          Raise (KeyError ("Unknown format '" +:+ ff +:+
                           "'. Pick one of " +:+
                           Str.repr_list (Str.sorted _writer_map_keys)))
      | Some w =>
          match check_cells num_nodes_per_cell (cells mesh) with
          | Raise e => Raise e
          | Ok _ => w filename mesh kwargs
          end
      end
  end.
Proof.
  unfold write. destruct (write_format _ _ _) as [ff|e]; [|done].
  cbn [mbind result_bind].
  destruct (_writer_map !! ff) as [w|]; [|done].
  cbn [mbind result_bind].
  by destruct (check_cells _ _) as [[]|e].
Qed.

Lemma check_cells_app pre post :
  check_cells num_nodes_per_cell (pre ++ post) =
  match check_cells num_nodes_per_cell pre with
  | Raise e => Raise e
  | Ok _ => check_cells num_nodes_per_cell post
  end.
Proof.
  induction pre as [|[key value] pre IH]; [done|].
  cbn [app check_cells mbind result_bind].
  by destruct (check_block _ key value) as [[]|e].
Qed.

(** C8.  [read] of a path that does not exist raises the "not found"
    [ReadError] whatever format identifier is or is not given: neither a
    failing inference nor an unknown identifier is reported instead. *)
Theorem read_missing_path (path : string) (file_format : option string) :
  is_buffer (PathStr path) "r" = false ->
  path_exists path = false ->
  read is_buffer path_exists (PathStr path) file_format =
  Raise (ReadError ("File " +:+ path +:+ " not found.")).
Proof.
  intros Hbuf Hex. unfold read. rewrite Hbuf.
  cbn [pathlib.Path mbind result_bind]. by rewrite Hex.
Qed.

(** C4.  On an object that [is_buffer] accepts (both [read] and [write]
    ask it with mode ["r"]), a call without format identifier raises the
    usage error and a call with the identifier [tetgen] raises the
    "cannot be read from / written to a buffer" error, [ReadError] in
    [read] and [WriteError] in [write]. *)
Theorem buffer_needs_format (filename : file_arg) (mesh : Mesh)
    (kwargs : gmap string pyval) :
  is_buffer filename "r" = true ->
  read is_buffer path_exists filename None =
    Raise (ReadError "File format must be given if buffer is used") /\
  write is_buffer num_nodes_per_cell filename mesh None kwargs =
    Raise (WriteError "File format must be supplied if `filename` is a buffer") /\
  read is_buffer path_exists filename (Some "tetgen") =
    Raise (ReadError "tetgen format is spread across multiple files, and so cannot be read from a buffer") /\
  write is_buffer num_nodes_per_cell filename mesh (Some "tetgen") kwargs =
    Raise (WriteError "tetgen format is spread across multiple files, and so cannot be written to a buffer").
Proof.
  intros Hbuf. rewrite !write_unfold. unfold read, write_format.
  by rewrite Hbuf.
Qed.

(** *** Validation of the cell blocks *)

Lemma check_block_polygon key value n :
  Str.take 7 key = "polygon" ->
  builtins.int (Str.drop 7 key) = Some n ->
  check_block num_nodes_per_cell key value =
  if bool_decide (Z.of_nat (shape value).2 = n) then Ok ()
  else Raise (WriteError "").
Proof.
  intros Hpre Hint. unfold check_block.
  rewrite bool_decide_eq_true_2, Hint by done.
  by repeat case_bool_decide.
Qed.

Lemma check_block_not_int key value :
  Str.take 7 key = "polygon" ->
  builtins.int (Str.drop 7 key) = None ->
  check_block num_nodes_per_cell key value =
  Raise (ValueError (Str.drop 7 key)).
Proof.
  intros Hpre Hint. unfold check_block.
  by rewrite bool_decide_eq_true_2, Hint.
Qed.

Lemma check_block_known key value n :
  Str.take 7 key <> "polygon" ->
  num_nodes_per_cell !! key = Some n ->
  check_block num_nodes_per_cell key value =
  if bool_decide ((shape value).2 = n) then Ok ()
  else Raise (WriteError "").
Proof.
  intros Hpre Hn. unfold check_block.
  rewrite bool_decide_eq_false_2, Hn by done.
  by repeat case_bool_decide.
Qed.

Lemma check_block_custom key value :
  Str.take 7 key <> "polygon" ->
  num_nodes_per_cell !! key = None ->
  check_block num_nodes_per_cell key value = Ok ().
Proof.
  intros Hpre Hn. unfold check_block.
  by rewrite bool_decide_eq_false_2, Hn.
Qed.

(** A passing validation hands the writer the very mesh and options
    that [write] was given. *)
Lemma write_valid filename mesh file_format kwargs ff w :
  write_format is_buffer filename file_format = Ok ff ->
  _writer_map !! ff = Some w ->
  check_cells num_nodes_per_cell (cells mesh) = Ok () ->
  write is_buffer num_nodes_per_cell filename mesh file_format kwargs =
  w filename mesh kwargs.
Proof.
  intros Hff Hw Hc. rewrite write_unfold, Hff. cbv beta iota.
  rewrite Hw. cbv beta iota. by rewrite Hc.
Qed.

Lemma write_invalid filename mesh file_format kwargs ff e :
  write_format is_buffer filename file_format = Ok ff ->
  is_Some (_writer_map !! ff) ->
  check_cells num_nodes_per_cell (cells mesh) = Raise e ->
  write is_buffer num_nodes_per_cell filename mesh file_format kwargs =
  Raise e.
Proof.
  intros Hff [w Hw] Hc. rewrite write_unfold, Hff. cbv beta iota.
  rewrite Hw. cbv beta iota. by rewrite Hc.
Qed.

(** The writer of an identifier, for [write_valid]. *)
Ltac writer_entry := unfold _writer_map; eval_lookup; reflexivity.

(** *** The writers *)

(** C3.  Every alias of [_writer_map] calls the writer of one backend
    with the parameters it stands for: the four [gmsh] aliases pass the
    version ["2"] or ["4"] and [binary] false or true, the two [ansys]
    aliases differ in [binary] only, and likewise for [ply], [stl],
    [vtu] and [vtk]; the [xdmf] aliases pass their [data_format].  This
    is so for a mesh that passes validation and for options that the
    alias can take: none named [f] or [m], the parameters of its lambda,
    and none named [binary]. *)
Theorem write_alias_dispatch filename mesh file_format kwargs :
  check_cells num_nodes_per_cell (cells mesh) = Ok () ->
  kwargs !! "f" = None ->
  kwargs !! "m" = None ->
  kwargs !! "binary" = None ->
  (forall ff b args flag,
     (ff, b, args, flag) ∈
       [ ("gmsh2-ascii", gmsh, [PyStr "2"], false);
         ("gmsh2-binary", gmsh, [PyStr "2"], true);
         ("gmsh4-ascii", gmsh, [PyStr "4"], false);
         ("gmsh4-binary", gmsh, [PyStr "4"], true);
         ("ansys-ascii", ansys, [], false);
         ("ansys-binary", ansys, [], true);
         ("ply-ascii", ply, [], false); ("ply-binary", ply, [], true);
         ("stl-ascii", stl, [], false); ("stl-binary", stl, [], true);
         ("vtu-ascii", vtu, [], false); ("vtu-binary", vtu, [], true);
         ("vtu", vtu, [], true);
         ("vtk-ascii", vtk, [], false); ("vtk-binary", vtk, [], true);
         ("vtk", vtk, [], true) ] ->
     write_format is_buffer filename file_format = Ok ff ->
     write is_buffer num_nodes_per_cell filename mesh file_format kwargs =
     Ok (WriteCall b filename mesh args (<["binary" := PyBool flag]> kwargs))) /\
  (forall ff token,
     (ff, token) ∈
       [ ("xdmf-binary", "Binary"); ("xdmf-hdf", "HDF"); ("xdmf-xml", "XML");
         ("xdmf3-binary", "Binary"); ("xdmf3-hdf", "HDF");
         ("xdmf3-xml", "XML") ] ->
     write_format is_buffer filename file_format = Ok ff ->
     write is_buffer num_nodes_per_cell filename mesh file_format kwargs =
     Ok (WriteCall xdmf filename mesh [] {[ "data_format" := PyStr token ]})).
Proof.
  intros Hc Hf Hm Hkw. split.
  - intros ff b args flag Hin Hff.
    repeat (apply elem_of_cons in Hin as [[= -> -> -> ->]|Hin];
      [erewrite write_valid; [|done|writer_entry|done];
       unfold fixing; by rewrite Hf, Hm, Hkw|]).
    by apply elem_of_nil in Hin.
  - intros ff token Hin Hff.
    repeat (apply elem_of_cons in Hin as [[= -> ->]|Hin];
      [erewrite write_valid; [|done|writer_entry|done];
       unfold only; by rewrite Hf, Hm|]).
    by apply elem_of_nil in Hin.
Qed.

(** C6, amended.  The identifiers of [_writer_map] are of three kinds.
    One bound to the writer of a backend calls that writer with every set
    of options as it is.  One that fixes [binary] forwards every set of
    options that it can take (none named [f], [m] or [binary]) as it is
    and adds its own [binary]; options named [f] or [m], the parameters
    of its lambda, and then an option [binary] are refused with a
    [TypeError] before the backend is called.  The third kind are the
    [xdmf] aliases with a [data_format], about which this statement says
    nothing. *)
Theorem write_forwards_options filename mesh file_format kwargs ff :
  let plain :=
    [ ("moab", h5m); ("wkt", wkt); ("med", med); ("medit", medit);
      ("dolfin-xml", dolfin); ("neuroglancer", neuroglancer); ("obj", obj);
      ("off", off); ("permas", permas); ("tetgen", tetgen); ("xdmf", xdmf);
      ("xdmf3", xdmf); ("abaqus", abaqus); ("exodus", exodus);
      ("mdpa", mdpa); ("svg", svg); ("nastran", nastran);
      ("flac3d", flac3d); ("cgns", cgns) ] in
  let fixed :=
    [ ("ansys-ascii", ansys, [], false); ("ansys-binary", ansys, [], true);
      ("gmsh2-ascii", gmsh, [PyStr "2"], false);
      ("gmsh2-binary", gmsh, [PyStr "2"], true);
      ("gmsh4-ascii", gmsh, [PyStr "4"], false);
      ("gmsh4-binary", gmsh, [PyStr "4"], true);
      ("ply-ascii", ply, [], false); ("ply-binary", ply, [], true);
      ("stl-ascii", stl, [], false); ("stl-binary", stl, [], true);
      ("vtu-ascii", vtu, [], false); ("vtu-binary", vtu, [], true);
      ("vtu", vtu, [], true);
      ("vtk-ascii", vtk, [], false); ("vtk-binary", vtk, [], true);
      ("vtk", vtk, [], true) ] in
  let data_format :=
    [ "xdmf-binary"; "xdmf-hdf"; "xdmf-xml"; "xdmf3-binary"; "xdmf3-hdf";
      "xdmf3-xml" ] in
  write_format is_buffer filename file_format = Ok ff ->
  check_cells num_nodes_per_cell (cells mesh) = Ok () ->
  (is_Some (_writer_map !! ff) <->
     ff ∈ plain.*1 \/ ff ∈ (fun t => t.1.1.1) <$> fixed \/ ff ∈ data_format) /\
  (forall b, (ff, b) ∈ plain ->
     write is_buffer num_nodes_per_cell filename mesh file_format kwargs =
     Ok (WriteCall b filename mesh [] kwargs)) /\
  (forall b args flag, (ff, b, args, flag) ∈ fixed ->
     (kwargs !! "f" = None -> kwargs !! "m" = None ->
      kwargs !! "binary" = None ->
      write is_buffer num_nodes_per_cell filename mesh file_format kwargs =
      Ok (WriteCall b filename mesh args
            (<["binary" := PyBool flag]> kwargs))) /\
     (is_Some (kwargs !! "f") \/ is_Some (kwargs !! "m") ->
      write is_buffer num_nodes_per_cell filename mesh file_format kwargs =
      Raise (TypeError MultipleValues)) /\
     (kwargs !! "f" = None -> kwargs !! "m" = None ->
      is_Some (kwargs !! "binary") ->
      write is_buffer num_nodes_per_cell filename mesh file_format kwargs =
      Raise (TypeError (DuplicateKeyword "binary")))).
Proof.
  intros plain fixed data_format Hff Hc. split_and!.
  - rewrite writer_keys, <- !elem_of_app.
    assert (_writer_map_keys ≡ₚ
            plain.*1 ++ ((fun t => t.1.1.1) <$> fixed) ++ data_format) as ->
      by by_evaluation.
    done.
  - intros b Hin. unfold plain in Hin.
    repeat (apply elem_of_cons in Hin as [[= -> ->]|Hin];
      [by erewrite write_valid; [|done|writer_entry|done]|]).
    by apply elem_of_nil in Hin.
  - intros b args flag Hin. unfold fixed in Hin.
    repeat (apply elem_of_cons in Hin as [[= -> -> -> ->]|Hin];
      [erewrite write_valid; [|done|writer_entry|done]; unfold fixing;
       split_and!;
       [by intros -> -> ->
       |intros [[v Hv]|[v Hv]]; rewrite Hv; [done|by destruct (kwargs !! "f")]
       |by intros -> -> [v ->]] |]).
    by apply elem_of_nil in Hin.
Qed.

(** C5, amended.  When the identifier that [write] resolves is no key
    of [_writer_map], [write] raises a [KeyError] (and no [WriteError]).
    Its message says that the format is unknown and lists the keys of
    [_writer_map] in sorted order; it is no message of the unknown
    format errors of [read]. *)
Theorem write_unknown_format filename mesh file_format kwargs ff :
  write_format is_buffer filename file_format = Ok ff ->
  _writer_map !! ff = None ->
  let msg := "Unknown format '" +:+ ff +:+ "'. Pick one of " +:+
             Str.repr_list (Str.sorted _writer_map_keys) in
  write is_buffer num_nodes_per_cell filename mesh file_format kwargs =
    Raise (KeyError msg) /\
  Sorted String.le (Str.sorted _writer_map_keys) /\
  NoDup (Str.sorted _writer_map_keys) /\
  (forall id, id ∈ Str.sorted _writer_map_keys <->
              is_Some (_writer_map !! id)) /\
  (forall ff' path,
     msg <> "Unknown file format '" +:+ ff' +:+ "'" /\
     msg <> "Unknown file format '" +:+ ff' +:+ "' of '" +:+ path +:+ "'.").
Proof.
  intros Hff Hnone msg. split_and!.
  - rewrite write_unfold, Hff. cbv beta iota. by rewrite Hnone.
  - apply (Sorted_merge_sort _).
  - unfold Str.sorted. rewrite merge_sort_Permutation.
    apply writer_keys_NoDup.
  - intros id. unfold Str.sorted. rewrite merge_sort_Permutation.
    symmetry. apply writer_keys.
  - intros ff' path.
    split; intros Heq; apply (f_equal (Str.take 10)) in Heq;
      vm_compute in Heq; discriminate Heq.
Qed.

(** C10, amended.  When the cell blocks before a block pass validation
    and the key of that block begins with [polygon] and goes on with
    characters that [int] refuses, [write] raises the [ValueError] of
    [int] and no [WriteError]: the block is neither checked as a
    polygon nor let through as a custom key. *)
Theorem write_polygon_suffix_not_int
    filename mesh file_format kwargs ff pre key value post :
  write_format is_buffer filename file_format = Ok ff ->
  is_Some (_writer_map !! ff) ->
  cells mesh = pre ++ (key, value) :: post ->
  check_cells num_nodes_per_cell pre = Ok () ->
  Str.take 7 key = "polygon" ->
  builtins.int (Str.drop 7 key) = None ->
  write is_buffer num_nodes_per_cell filename mesh file_format kwargs =
  Raise (ValueError (Str.drop 7 key)).
Proof.
  intros Hff Hw Hcells Hpre Hkey Hint.
  apply (write_invalid _ _ _ _ ff); [done..|].
  rewrite Hcells, check_cells_app, Hpre.
  cbn [check_cells mbind result_bind].
  by rewrite check_block_not_int.
Qed.

End Properties.

(** ** The results at concrete calls *)

Lemma read_missing_path_witness :
  read buffers_only no_files (PathStr "mesh.unknownext") None =
    Raise (ReadError "File mesh.unknownext not found.") /\
  read buffers_only no_files (PathStr "mesh.vtk") (Some "no-such-format") =
    Raise (ReadError "File mesh.vtk not found.").
Proof.
  split; apply (read_missing_path buffers_only no_files); reflexivity.
Defined.

Lemma buffer_needs_format_witness :
  read buffers_only all_files (BufferObj 0) (Some "tetgen") =
    Raise (ReadError "tetgen format is spread across multiple files, and so cannot be read from a buffer") /\
  write buffers_only shapes (BufferObj 0) (mesh_of []) None ∅ =
    Raise (WriteError "File format must be supplied if `filename` is a buffer").
Proof.
  destruct (buffer_needs_format buffers_only all_files shapes (BufferObj 0)
              (mesh_of []) ∅ eq_refl) as (_ & Hw & Hr & _).
  exact (conj Hr Hw).
Defined.

Lemma write_alias_dispatch_witness :
  write buffers_only shapes (BufferObj 0) triangle_mesh (Some "gmsh4-ascii")
    {[ "float_fmt" := PyStr ".3e" ]} =
  Ok (WriteCall gmsh (BufferObj 0) triangle_mesh [PyStr "4"]
        (<["binary" := PyBool false]> {[ "float_fmt" := PyStr ".3e" ]})) /\
  write buffers_only shapes (PathStr "out.xmf") triangle_mesh (Some "xdmf-xml") ∅ =
  Ok (WriteCall xdmf (PathStr "out.xmf") triangle_mesh []
        {[ "data_format" := PyStr "XML" ]}).
Proof.
  split.
  - eapply (proj1 (write_alias_dispatch buffers_only shapes (BufferObj 0)
                     triangle_mesh (Some "gmsh4-ascii")
                     {[ "float_fmt" := PyStr ".3e" ]} _ _ _ _));
      [|reflexivity].
    do 2 constructor. constructor.
  - eapply (proj2 (write_alias_dispatch buffers_only shapes (PathStr "out.xmf")
                     triangle_mesh (Some "xdmf-xml") ∅ _ _ _ _));
      [|reflexivity].
    do 2 constructor. constructor.
  Unshelve. all: vm_compute; reflexivity.
Defined.

(** C6 fails: the options given with the alias [xdmf-hdf] do not reach
    the backend, and the option [binary] given with the alias [vtk-ascii]
    stops the call. *)
Lemma write_forwards_options_counterexample :
  (exists call,
     write buffers_only shapes (PathStr "out.xdmf") triangle_mesh
       (Some "xdmf-hdf") {[ "compression_opts" := PyInt 9 ]} = Ok call /\
     wc_kwargs call !! "compression_opts" = None) /\
  write buffers_only shapes (PathStr "out.vtk") triangle_mesh
    (Some "vtk-ascii") {[ "binary" := PyBool true ]} =
  Raise (TypeError (DuplicateKeyword "binary")).
Proof.
  split; [eexists; split|]; vm_compute; reflexivity.
Qed.

Lemma write_forwards_options_witness :
  write buffers_only shapes (PathStr "out.svg") triangle_mesh None
    {[ "image_width" := PyInt 100 ]} =
  Ok (WriteCall svg (PathStr "out.svg") triangle_mesh []
        {[ "image_width" := PyInt 100 ]}) /\
  write buffers_only shapes (PathStr "out.stl") triangle_mesh None
    {[ "title" := PyStr "part" ]} =
  Ok (WriteCall stl (PathStr "out.stl") triangle_mesh []
        (<["binary" := PyBool true]> {[ "title" := PyStr "part" ]})) /\
  write buffers_only shapes (PathStr "out.stl") triangle_mesh None
    {[ "m" := PyInt 1 ]} =
  Raise (TypeError MultipleValues).
Proof.
  split_and!.
  - eapply (proj1 (proj2 (write_forwards_options buffers_only shapes
       (PathStr "out.svg") triangle_mesh None {[ "image_width" := PyInt 100 ]}
       "svg" _ _))).
    do 15 constructor. constructor.
  - eapply (proj1 (proj2 (proj2 (write_forwards_options buffers_only shapes
       (PathStr "out.stl") triangle_mesh None {[ "title" := PyStr "part" ]}
       "stl-binary" _ _)) stl [] true _));
      vm_compute; reflexivity.
  - eapply (proj1 (proj2 (proj2 (proj2 (write_forwards_options buffers_only
       shapes (PathStr "out.stl") triangle_mesh None {[ "m" := PyInt 1 ]}
       "stl-binary" _ _)) stl [] true _))).
    right. eexists. vm_compute. reflexivity.
  Unshelve.
  all: try (vm_compute; reflexivity).
  all: do 9 constructor; constructor.
Defined.

(** C5 fails: the error of an unknown identifier is a [KeyError]. *)
Lemma write_unknown_format_counterexample :
  ~ exists msg,
      write buffers_only shapes (PathStr "out.vtk") triangle_mesh
        (Some "vtk-asci") ∅ = Raise (WriteError msg).
Proof. intros [msg Hmsg]. vm_compute in Hmsg. discriminate Hmsg. Qed.

Lemma write_unknown_format_witness :
  write buffers_only shapes (BufferObj 0) triangle_mesh (Some "vtk-asci") ∅ =
  Raise (KeyError
    ("Unknown format '" +:+ "vtk-asci" +:+ "'. Pick one of " +:+
     Str.repr_list (Str.sorted _writer_map_keys))).
Proof.
  assert (write_format buffers_only (BufferObj 0) (Some "vtk-asci") =
          Ok "vtk-asci") as Hff by reflexivity.
  assert (_writer_map !! "vtk-asci" = None) as Hnone
    by (vm_compute; reflexivity).
  exact (proj1 (write_unknown_format buffers_only shapes (BufferObj 0)
                  triangle_mesh (Some "vtk-asci") ∅ "vtk-asci" Hff Hnone)).
Defined.

(** C9 fails: in [input_filetypes], [wkt] stands before [exodus]. *)
Lemma filetype_lists_counterexample :
  ~ (Sorted String.le input_filetypes /\
     Sorted String.le output_filetypes /\
     (forall id, id ∈ input_filetypes <-> is_Some (format_to_reader !! id)) /\
     (forall id, id ∈ output_filetypes <-> is_Some (_writer_map !! id))).
Proof.
  intros (Hsorted & _).
  assert (~ Sorted String.le input_filetypes) as Hnot by by_evaluation.
  by apply Hnot.
Qed.

Lemma filetype_lists_witness :
  is_Some (format_to_reader !! "tetgen") /\ ("tetgen" ∉ input_filetypes) /\
  is_Some (_writer_map !! "vtk") /\ ("vtk" ∉ output_filetypes).
Proof.
  destruct filetype_lists as (_ & _ & Hr & Hw & Hreaders & Hwriters).
  split_and!.
  - apply Hreaders. right. by_evaluation.
  - intros Hin. apply NoDup_app in Hr as (_ & Hr & _).
    apply (Hr _ Hin). by_evaluation.
  - apply Hwriters. right. by_evaluation.
  - intros Hin. apply NoDup_app in Hw as (_ & Hw & _).
    apply (Hw _ Hin). by_evaluation.
Defined.

(** C10 fails: the block [polygon5] of width 6 stands before the block
    [polygonal], and [write] raises the [WriteError] of the first. *)
Lemma write_polygon_suffix_not_int_counterexample :
  let mesh := mesh_of [("polygon5", block 1 6); ("polygonal", block 1 3)] in
  (("polygonal", block 1 3) ∈ cells mesh /\
   Str.take 7 "polygonal" = "polygon" /\
   builtins.int (Str.drop 7 "polygonal") = None) /\
  write buffers_only shapes (PathStr "out.vtk") mesh None ∅ =
  Raise (WriteError "").
Proof.
  split; [split_and!|]; try (vm_compute; reflexivity).
  do 2 constructor.
Qed.

Lemma write_polygon_suffix_not_int_witness :
  write buffers_only shapes (PathStr "out.vtk")
    (mesh_of [("triangle", block 1 3); ("polygon", block 1 3)]) None ∅ =
  Raise (ValueError "").
Proof.
  apply (write_polygon_suffix_not_int buffers_only shapes (PathStr "out.vtk")
           _ None ∅ "vtk-binary" [("triangle", block 1 3)] "polygon"
           (block 1 3) []); try (vm_compute; reflexivity).
  rewrite writer_keys. by_evaluation.
Defined.

(** C2.  The examples of the spec pass and fail as it says: [triangle]
    of width 3 and 4, [polygon5] of width 5 and 6, [custom_xyz] of any
    width.  The key [polygonal] is no [polygonN] and no key of the
    cell-shape table, yet its block is not skipped: whatever its width,
    [write] raises the [ValueError] of [int("al")]. *)
Theorem write_custom_key_polygonal :
  let validate key width :=
    check_cells shapes (cells (mesh_of [(key, block 1 width)])) in
  validate "triangle" 3%nat = Ok () /\
  validate "triangle" 4%nat = Raise (WriteError "") /\
  validate "polygon5" 5%nat = Ok () /\
  validate "polygon5" 6%nat = Raise (WriteError "") /\
  (forall width, validate "custom_xyz" width = Ok ()) /\
  shapes !! "polygonal" = None /\
  (forall rows width,
     write buffers_only shapes (PathStr "out.vtk")
       (mesh_of [("polygonal", block rows width)]) None ∅ =
     Raise (ValueError "al")).
Proof. split_and!; intros; vm_compute; reflexivity. Qed.

(** * Further properties of the module *)

(** ** The extension table and the other tables *)

(** No key of the extension table ends with another key that has another
    identifier. *)
Definition keys_agree : bool :=
  forallb (fun kv1 =>
    forallb (fun kv2 =>
      implb (Str.endswith kv1.1 kv2.1) (bool_decide (kv1.2 = kv2.2)))
      extension_items)
    extension_items.

Lemma extension_keys_agree (k s v1 v2 : string) :
  _extension_to_filetype !! k = Some v1 ->
  _extension_to_filetype !! (s +:+ k) = Some v2 ->
  v1 = v2.
Proof.
  intros H1%extension_lookup H2%extension_lookup.
  assert (keys_agree = true) as Hagree by (vm_compute; reflexivity).
  unfold keys_agree in Hagree. rewrite forallb_forall in Hagree.
  specialize (Hagree _ (proj1 (list_elem_of_In _ _) H1)).
  rewrite forallb_forall in Hagree.
  specialize (Hagree _ (proj1 (list_elem_of_In _ _) H2)).
  cbn [fst snd] in Hagree. rewrite endswith_app in Hagree.
  by apply bool_decide_eq_true in Hagree.
Qed.

Lemma join_app (l1 l2 : list string) :
  Str.join (l1 ++ l2) = Str.join l1 +:+ Str.join l2.
Proof.
  induction l1 as [|c l1 IH]; [done|].
  change ((c :: l1) ++ l2) with (c :: (l1 ++ l2)).
  by rewrite !join_cons, IH, string_app_assoc.
Qed.

Lemma scan_out_any (l l1 l2 : list string) (ft : string) :
  l = l1 ++ l2 ->
  _extension_to_filetype !! Str.join l2 = Some ft ->
  (scan l).2 = Some ft.
Proof.
  revert l1. induction l as [|a l IH]; intros l1 Hl Hft.
  - symmetry in Hl. apply app_eq_nil in Hl as [_ ->]. done.
  - rewrite scan_out_cons. destruct l1 as [|b l1].
    + simpl in Hl. subst l2. by rewrite Hft.
    + injection Hl as <- Hl. specialize (IH l1 Hl Hft).
      destruct (_extension_to_filetype !! Str.join (a :: l)) as [v|] eqn:Hv;
        [|done].
      f_equal. symmetry.
      apply (extension_keys_agree (Str.join l2) (a +:+ Str.join l1)); [done|].
      by rewrite string_app_assoc, <- join_app, <- join_cons, <- Hl.
Qed.

(** X1.  Whenever some accumulated suffix of the path is a key of the
    extension table, inference returns the identifier of that key: the
    keys met along one path never disagree, so the order of the scan and
    the rule that the last match wins do not change any answer with this
    table. *)
Theorem infer_any_match (path : string) (l1 l2 : list string) (ft : string) :
  pathlib.suffixes path = l1 ++ l2 ->
  _extension_to_filetype !! Str.join l2 = Some ft ->
  _filetype_from_path path = Ok ft.
Proof.
  intros Hl Hft. rewrite filetype_from_scan.
  by rewrite (scan_out_any _ l1 l2 ft).
Qed.

Lemma infer_any_match_witness :
  _filetype_from_path "results/run.old.post.gz" = Ok "permas".
Proof.
  apply (infer_any_match "results/run.old.post.gz" [".old"] [".post"; ".gz"]);
    vm_compute; reflexivity.
Defined.

Lemma inferred_is_value (path ft : string) :
  _filetype_from_path path = Ok ft -> ft ∈ extension_items.*2.
Proof.
  rewrite filetype_from_scan.
  destruct (scan (pathlib.suffixes path)).2 as [v|] eqn:Hout; [|done].
  intros [= ->]. apply scan_out_longest in Hout as (l1 & l2 & _ & Hft & _).
  apply extension_lookup in Hft. apply list_elem_of_fmap. by exists (Str.join l2, ft).
Qed.

Lemma extension_values_registered :
  Forall (fun ft => ft ∈ _writer_map_keys /\
                    (ft ∈ reader_items.*1 <-> ft <> "svg"))
         extension_items.*2.
Proof. by_evaluation. Qed.

Lemma inferred_has_writer (path ft : string) :
  _filetype_from_path path = Ok ft -> is_Some (_writer_map !! ft).
Proof.
  intros Hin%inferred_is_value. rewrite writer_keys.
  pose proof extension_values_registered as Hall.
  rewrite Forall_forall in Hall. by apply Hall.
Qed.

(** X2.  Every identifier that inference can return is a key of the
    writer table, and every one but [svg] is a key of the reader table. *)
Theorem inferred_is_registered (path ft : string) :
  _filetype_from_path path = Ok ft ->
  is_Some (_writer_map !! ft) /\
  (is_Some (format_to_reader !! ft) <-> ft <> "svg").
Proof.
  intros Hin%inferred_is_value. rewrite writer_keys, reader_keys.
  pose proof extension_values_registered as Hall.
  rewrite Forall_forall in Hall. by apply Hall.
Qed.

Lemma inferred_is_registered_witness :
  is_Some (_writer_map !! "svg") /\ ~ is_Some (format_to_reader !! "svg").
Proof.
  destruct (inferred_is_registered "drawing.svg" "svg") as [Hw Hr].
  - vm_compute. reflexivity.
  - split; [done|]. intros Hsome. by apply Hr in Hsome.
Defined.

(** ** The writers of the table *)

(** The entry of a key, by evaluation in a hypothesis. *)
Ltac eval_lookup_in H :=
  rewrite ?lookup_list_to_map in H;
  lazy -[fixing direct only] in H.

(** A writer of the table either calls a backend with the file and the
    mesh it was given, or refuses a second [binary], or refuses an option
    named [f] or [m]. *)
Lemma writer_result ff (w : writer) f m kw :
  _writer_map !! ff = Some w ->
  (exists b args kw', w f m kw = Ok (WriteCall b f m args kw')) \/
  w f m kw = Raise (TypeError (DuplicateKeyword "binary")) \/
  w f m kw = Raise (TypeError MultipleValues).
Proof.
  unfold _writer_map. intros Hw%(elem_of_list_to_map_2 (M := gmap string)).
  unfold writer_items in Hw.
  repeat (apply elem_of_cons in Hw as [[= -> ->]|Hw];
    [unfold direct, fixing, only;
     destruct (kw !! "f"), (kw !! "m"), (kw !! "binary"); by eauto 10|]).
  by apply elem_of_nil in Hw.
Qed.

(** X3.  An identifier that both tables know reads and writes with the
    same backend. *)
Theorem reader_writer_same_backend ff b (w : writer) f m kw call :
  format_to_reader !! ff = Some b ->
  _writer_map !! ff = Some w ->
  w f m kw = Ok call ->
  wc_backend call = b.
Proof.
  unfold format_to_reader, _writer_map.
  intros Hr%(elem_of_list_to_map_2 (M := gmap string)) Hw Hcall.
  unfold reader_items in Hr.
  repeat (apply elem_of_cons in Hr as [[= -> ->]|Hr];
    [eval_lookup_in Hw; simplify_eq; revert Hcall;
     unfold direct, fixing, only;
     destruct (kw !! "f"), (kw !! "m"), (kw !! "binary");
     by intros [= <-] |]).
  by apply elem_of_nil in Hr.
Qed.

Lemma reader_writer_same_backend_witness :
  let call :=
    WriteCall stl (PathStr "part.stl") triangle_mesh []
      {[ "binary" := PyBool false ]} in
  format_to_reader !! "stl-ascii" = Some stl /\ wc_backend call = stl.
Proof.
  intros call. split; [vm_compute; reflexivity|].
  apply (reader_writer_same_backend "stl-ascii" stl
           (fixing stl [] "binary" (PyBool false))
           (PathStr "part.stl") triangle_mesh ∅ call);
    vm_compute; reflexivity.
Defined.

(** ** [int] reads back the decimal digits of a number *)

Definition all_digits (s : string) : bool :=
  forallb (fun c => bool_decide (is_Some (Ascii.is_nat c)))
          (list_ascii_of_string s).

Lemma string_app_nil_r (s : string) : s +:+ "" = s.
Proof.
  induction s as [|a s IH]; [done|].
  change (String a (s +:+ "") = String a s). by rewrite IH.
Qed.

Lemma rev_app_rev_app (s t u : string) :
  String.rev_app (String.rev_app s t) u = String.rev_app t (s +:+ u).
Proof.
  revert t u. induction s as [|a s IH]; intros t u; [done|].
  cbn [String.rev_app]. by rewrite IH.
Qed.

Lemma rev_involutive (s : string) : String.rev (String.rev s) = s.
Proof.
  unfold String.rev. rewrite rev_app_rev_app. apply string_app_nil_r.
Qed.

Lemma all_digits_rev_app (s t : string) :
  all_digits s = true -> all_digits t = true ->
  all_digits (String.rev_app s t) = true.
Proof.
  revert t. induction s as [|a s IH]; intros t Hs Ht; [done|].
  unfold all_digits in Hs. cbn [list_ascii_of_string forallb] in Hs.
  apply andb_true_iff in Hs as [Ha Hs]. cbn [String.rev_app].
  apply IH; [done|]. unfold all_digits.
  cbn [list_ascii_of_string forallb]. by rewrite Ha.
Qed.

Lemma lstrip_space_digits (s : string) :
  all_digits s = true -> builtins.lstrip_space s = s.
Proof.
  destruct s as [|a s]; [done|]. unfold all_digits.
  cbn [list_ascii_of_string forallb builtins.lstrip_space].
  intros [Ha _]%andb_true_iff. apply bool_decide_eq_true in Ha as [d Hd].
  assert (builtins.is_space a = false) as ->; [|done].
  revert Hd. by destruct a as [[] [] [] [] [] [] [] []].
Qed.

Lemma strip_digits (s : string) :
  all_digits s = true -> builtins.strip s = s.
Proof.
  intros Hs. unfold builtins.strip.
  rewrite (lstrip_space_digits s Hs), lstrip_space_digits.
  - apply rev_involutive.
  - by apply all_digits_rev_app.
Qed.

Lemma all_digits_of_uint (d : Decimal.uint) :
  all_digits (NilEmpty.string_of_uint d) = true.
Proof. induction d; done. Qed.

Lemma digits_of_uint (d : Decimal.uint) (acc : nat) :
  builtins.digits (Z.of_nat acc) (NilEmpty.string_of_uint d) =
  Some (Z.of_nat (Nat.of_uint_acc d acc)).
Proof.
  revert acc.
  induction d as [|d IH|d IH|d IH|d IH|d IH|d IH|d IH|d IH|d IH|d IH];
    intros acc; [done|..];
    cbn [NilEmpty.string_of_uint builtins.digits Ascii.is_nat Nat.of_uint_acc];
    rewrite <- IH; f_equal; rewrite Nat.tail_mul_spec; lia.
Qed.

Lemma int_of_uint (d : Decimal.uint) :
  d <> Decimal.Nil ->
  builtins.int (NilEmpty.string_of_uint d) = Some (Z.of_nat (Nat.of_uint d)).
Proof.
  intros Hd. unfold builtins.int.
  rewrite strip_digits by apply all_digits_of_uint.
  unfold Nat.of_uint.
  destruct d; [done|..];
    cbn [NilEmpty.string_of_uint builtins.unsigned Ascii.is_nat Nat.of_uint_acc];
    rewrite <- digits_of_uint; f_equal.
Qed.

Lemma int_str_of_nat (n : nat) :
  builtins.int (str_of_nat n) = Some (Z.of_nat n).
Proof.
  unfold str_of_nat. rewrite int_of_uint.
  - by rewrite Unsigned.of_to.
  - rewrite <- (Unsigned.of_to n) at 1. rewrite Unsigned.to_of.
    unfold Decimal.unorm. by destruct (Decimal.nzhead _).
Qed.

(** ** Validation *)

Section Validation.

Context (num_nodes_per_cell : gmap string nat).

Lemma check_block_error key value e :
  check_block num_nodes_per_cell key value = Raise e ->
  e = WriteError "" \/ e = ValueError (Str.drop 7 key).
Proof.
  unfold check_block. repeat case_match; naive_solver.
Qed.

Lemma check_cells_error items e :
  check_cells num_nodes_per_cell items = Raise e ->
  e = WriteError "" \/ exists lit, e = ValueError lit.
Proof.
  induction items as [|[key value] items IH]; [done|].
  cbn [check_cells mbind result_bind].
  destruct (check_block num_nodes_per_cell key value) as [[]|e0] eqn:Hb;
    [done|].
  intros [= <-]. apply check_block_error in Hb as [->| ->]; eauto.
Qed.

(** X4.  Validation passes exactly when every block passes on its own.
    When it fails, the error is that of the first block that fails, the
    blocks before it pass and the blocks after it are not looked at; the
    error is [WriteError()] or the [ValueError] of [int]. *)
Theorem check_cells_first_failure (items : list (string * ndarray)) :
  (check_cells num_nodes_per_cell items = Ok () <->
   Forall (fun kv => check_block num_nodes_per_cell kv.1 kv.2 = Ok ()) items) /\
  (forall e, check_cells num_nodes_per_cell items = Raise e ->
     exists pre kv post,
       items = pre ++ kv :: post /\
       check_cells num_nodes_per_cell pre = Ok () /\
       check_block num_nodes_per_cell kv.1 kv.2 = Raise e /\
       (forall post',
          check_cells num_nodes_per_cell (pre ++ kv :: post') = Raise e) /\
       (e = WriteError "" \/ e = ValueError (Str.drop 7 kv.1))).
Proof.
  induction items as [|[key value] items [IHok IHerr]].
  - split; [by split|done].
  - cbn [check_cells mbind result_bind].
    destruct (check_block num_nodes_per_cell key value) as [[]|e0] eqn:Hb.
    + split.
      * rewrite IHok, Forall_cons. cbn [fst snd]. rewrite Hb.
        split; [by split | by intros [_ ?]].
      * intros e (pre & kv & post & -> & Hpre & Hkv & Hpost & He)%IHerr.
        exists ((key, value) :: pre), kv, post.
        split_and!; [done| |done| |done].
        -- cbn [check_cells mbind result_bind]. by rewrite Hb.
        -- intros post'. cbn [app check_cells mbind result_bind].
           rewrite Hb. apply Hpost.
    + split.
      * split; [done|]. intros [Hk _]%Forall_cons. cbn [fst snd] in Hk.
        congruence.
      * intros e [= <-]. exists [], (key, value), items.
        split_and!; [done..| |by eapply check_block_error].
        intros post'. cbn [app check_cells mbind result_bind fst snd].
        by rewrite Hb.
Qed.

(** X5.  For cell blocks none of whose keys begins with [polygon],
    validation passes exactly when every block whose key is in the
    cell-shape table has the width the table gives; otherwise it raises
    [WriteError()].  Keys that the table does not hold never fail. *)
Theorem check_cells_without_polygon (items : list (string * ndarray)) :
  Forall (fun kv => Str.take 7 kv.1 <> "polygon") items ->
  (check_cells num_nodes_per_cell items = Ok () <->
   Forall (fun kv => forall n, num_nodes_per_cell !! kv.1 = Some n ->
                               (shape kv.2).2 = n) items) /\
  (check_cells num_nodes_per_cell items <> Ok () ->
   check_cells num_nodes_per_cell items = Raise (WriteError "")).
Proof.
  induction items as [|[key value] items IH].
  - intros _. split; [by split|done].
  - intros [Hkey [IHok IHerr]%IH]%Forall_cons. cbn [fst snd] in Hkey.
    cbn [check_cells mbind result_bind]. rewrite Forall_cons. cbn [fst snd].
    destruct (num_nodes_per_cell !! key) as [n|] eqn:Hn.
    + rewrite (check_block_known _ _ _ n) by done.
      case_bool_decide as Hw; cbn [mbind result_bind].
      * split; [|exact IHerr]. rewrite IHok.
        split; [|by intros [_ ?]]. intros Hall. split; [|done].
        by intros n0 [= <-].
      * split; [|done]. split; [done|]. intros [Hn' _].
        by specialize (Hn' n eq_refl).
    + rewrite check_block_custom by done. cbn [mbind result_bind].
      split; [|exact IHerr]. rewrite IHok.
      split; [|by intros [_ ?]]. intros Hall. by split.
Qed.

(** X6.  For every number [N], the block of the key [polygonN] (the
    decimal digits of [N] after [polygon]) passes validation exactly when
    its width is [N], whatever the cell-shape table holds. *)
Theorem check_block_polygon_decimal (n : nat) (value : ndarray) :
  check_block num_nodes_per_cell ("polygon" +:+ str_of_nat n) value =
  if bool_decide ((shape value).2 = n) then Ok () else Raise (WriteError "").
Proof.
  rewrite (check_block_polygon _ _ _ (Z.of_nat n)).
  - repeat case_bool_decide; (done || lia).
  - reflexivity.
  - apply int_str_of_nat.
Qed.

End Validation.

Lemma check_cells_first_failure_witness :
  exists pre kv post,
    [("triangle", block 2 3); ("quad", block 2 3); ("tetra", block 2 9)] =
      pre ++ kv :: post /\
    check_block shapes kv.1 kv.2 = Raise (WriteError "").
Proof.
  destruct (proj2 (check_cells_first_failure shapes
      [("triangle", block 2 3); ("quad", block 2 3); ("tetra", block 2 9)])
      (WriteError "")) as (pre & kv & post & Hl & _ & Hkv & _).
  - vm_compute. reflexivity.
  - by exists pre, kv, post.
Defined.

Lemma check_cells_without_polygon_witness :
  check_cells shapes [("triangle", block 4 3); ("custom_xyz", block 4 17)] =
    Ok () /\
  check_cells shapes [("custom_xyz", block 4 17); ("quad", block 1 3)] =
    Raise (WriteError "").
Proof.
  split.
  - destruct (check_cells_without_polygon shapes
        [("triangle", block 4 3); ("custom_xyz", block 4 17)]) as [Hiff _].
    + repeat constructor; vm_compute; discriminate.
    + apply Hiff. repeat constructor; cbn [fst snd]; intros n Hn;
        vm_compute in Hn; by simplify_eq.
  - destruct (check_cells_without_polygon shapes
        [("custom_xyz", block 4 17); ("quad", block 1 3)]) as [_ Herr].
    + repeat constructor; vm_compute; discriminate.
    + apply Herr. vm_compute. discriminate.
Defined.


(** ** Writing *)

Section Writing.

Context (is_buffer : file_arg -> string -> bool)
        (num_nodes_per_cell : gmap string nat).

Lemma write_steps filename mesh file_format kwargs :
  write is_buffer num_nodes_per_cell filename mesh file_format kwargs =
  match write_format is_buffer filename file_format with
  | Raise e => Raise e
  | Ok ff =>
      match _writer_map !! ff with
      | None =>
          Raise (KeyError ("Unknown format '" +:+ ff +:+
                           "'. Pick one of " +:+
                           Str.repr_list (Str.sorted _writer_map_keys)))
      | Some w =>
          match check_cells num_nodes_per_cell (cells mesh) with
          | Raise e => Raise e
          | Ok _ => w filename mesh kwargs
          end
      end
  end.
Proof.
  unfold write. destruct (write_format _ _ _) as [ff|e]; [|done].
  cbn [mbind result_bind].
  destruct (_writer_map !! ff) as [w|]; [|done].
  cbn [mbind result_bind].
  by destruct (check_cells _ _) as [[]|e].
Qed.

Lemma write_ok_inv filename mesh file_format kwargs call :
  write is_buffer num_nodes_per_cell filename mesh file_format kwargs =
    Ok call ->
  wc_filename call = filename /\
  wc_mesh call = mesh /\
  check_cells num_nodes_per_cell (cells mesh) = Ok () /\
  exists ff, write_format is_buffer filename file_format = Ok ff /\
             is_Some (_writer_map !! ff).
Proof.
  rewrite write_steps.
  destruct (write_format _ _ _) as [ff|e]; [|done].
  destruct (_writer_map !! ff) as [w|] eqn:Hw; [|done].
  destruct (check_cells _ _) as [[]|e]; [|done].
  intros Hcall.
  destruct (writer_result ff w filename mesh kwargs Hw)
    as [(b & args & kw' & Hok)|[Herr|Herr]]; [|congruence..].
  rewrite Hok in Hcall. injection Hcall as <-. by eauto 10.
Qed.

(** X7.  Whenever [write] reaches a backend, the identifier it resolved
    is a key of the writer table, every cell block passed validation, and
    the backend is called with the very file argument and mesh that
    [write] was given. *)
Theorem write_call_unchanged filename mesh file_format kwargs call :
  write is_buffer num_nodes_per_cell filename mesh file_format kwargs =
    Ok call ->
  wc_filename call = filename /\
  wc_mesh call = mesh /\
  check_cells num_nodes_per_cell (cells mesh) = Ok () /\
  exists ff, write_format is_buffer filename file_format = Ok ff /\
             is_Some (_writer_map !! ff).
Proof.
  rewrite write_steps.
  destruct (write_format _ _ _) as [ff|e]; [|done].
  destruct (_writer_map !! ff) as [w|] eqn:Hw; [|done].
  destruct (check_cells _ _) as [[]|e]; [|done].
  intros Hcall.
  destruct (writer_result ff w filename mesh kwargs Hw)
    as [(b & args & kw' & Hok)|[Herr|Herr]]; [|congruence..].
  rewrite Hok in Hcall. injection Hcall as <-. by eauto 10.
Qed.

(** X8.  [write] to a path without a format identifier never raises the
    unknown-format [KeyError]: inference either fails, or gives an
    identifier that has a writer. *)
Theorem write_inferred_never_unknown path mesh file_format kwargs msg :
  is_buffer (PathStr path) "r" = false ->
  falsy file_format = true ->
  write is_buffer num_nodes_per_cell (PathStr path) mesh file_format kwargs <>
  Raise (KeyError msg).
Proof.
  intros Hbuf Hfalsy. rewrite write_steps. unfold write_format.
  rewrite Hbuf. cbn [pathlib.Path mbind result_bind]. rewrite Hfalsy.
  destruct (_filetype_from_path path) as [ft|e] eqn:Hft.
  - destruct (inferred_has_writer path ft Hft) as [w Hw]. rewrite Hw.
    destruct (check_cells _ _) as [[]|e] eqn:Hc.
    + destruct (writer_result ft w (PathStr path) mesh kwargs Hw)
        as [(b & args & kw' & ->)|[->| ->]]; done.
    + apply check_cells_error in Hc as [->|[lit ->]]; done.
  - rewrite filetype_from_scan in Hft.
    destruct (scan (pathlib.suffixes path)).2; [done|]. by injection Hft as <-.
Qed.

(** X9.  [write] to a path without a format identifier, when no
    accumulated suffix of the path is a key of the extension table,
    raises the [ReadError] of the inference (a read error, although the
    call is a write), before the mesh is looked at. *)
Theorem write_unrecognised_extension path mesh file_format kwargs :
  is_buffer (PathStr path) "r" = false ->
  falsy file_format = true ->
  (forall l1 l2, pathlib.suffixes path = l1 ++ l2 ->
     _extension_to_filetype !! Str.join l2 = None) ->
  write is_buffer num_nodes_per_cell (PathStr path) mesh file_format kwargs =
  Raise (ReadError
    ("Could not deduce file format from extension '" +:+
     Str.join (pathlib.suffixes path) +:+ "'.")).
Proof.
  intros Hbuf Hfalsy Hnone%scan_out_None. rewrite write_steps.
  unfold write_format. rewrite Hbuf.
  cbn [pathlib.Path mbind result_bind].
  by rewrite Hfalsy, filetype_from_scan, Hnone.
Qed.

(** X10.  [write_points_cells] reaches a backend only with cell blocks
    that pass validation, and then the backend gets a mesh that holds the
    given points and the given cell blocks, in the given order, and the
    given file argument. *)
Theorem write_points_cells_call
    filename pts cs point_data cell_data field_data file_format kwargs call :
  write_points_cells is_buffer num_nodes_per_cell filename pts cs
    point_data cell_data field_data file_format kwargs = Ok call ->
  wc_filename call = filename /\
  points (wc_mesh call) = pts /\
  cells (wc_mesh call) = cs /\
  check_cells num_nodes_per_cell cs = Ok ().
Proof.
  unfold write_points_cells, asarray.
  assert ((fun kv : string * ndarray => (kv.1, kv.2)) <$> cs = cs) as ->.
  { induction cs as [|[k v] cs IH]; [done|]. cbn [fmap list_fmap fst snd].
    f_equal. apply IH. }
  intros (Hf & -> & Hc & _)%write_ok_inv. done.
Qed.

End Writing.

Lemma write_call_unchanged_witness :
  let call :=
    WriteCall ply (PathStr "part.ply") triangle_mesh []
      {[ "binary" := PyBool true ]} in
  write buffers_only shapes (PathStr "part.ply") triangle_mesh None ∅ =
    Ok call /\
  wc_mesh call = triangle_mesh /\
  check_cells shapes (cells triangle_mesh) = Ok ().
Proof.
  intros call.
  assert (write buffers_only shapes (PathStr "part.ply") triangle_mesh None ∅ =
          Ok call) as Hcall by (vm_compute; reflexivity).
  split; [exact Hcall|].
  destruct (write_call_unchanged buffers_only shapes _ _ _ _ call Hcall)
    as (_ & Hmesh & Hcells & _).
  by split.
Defined.

Lemma write_inferred_never_unknown_witness :
  write buffers_only shapes (PathStr "drawing.svg") triangle_mesh (Some "") ∅ <>
  Raise (KeyError "Unknown format").
Proof.
  apply (write_inferred_never_unknown buffers_only shapes); reflexivity.
Defined.

Lemma write_unrecognised_extension_witness :
  write buffers_only shapes (PathStr "mesh.unknownext")
    (mesh_of [("triangle", block 1 4)]) None ∅ =
  Raise (ReadError
    "Could not deduce file format from extension '.unknownext'.").
Proof.
  apply (write_unrecognised_extension buffers_only shapes "mesh.unknownext");
    [reflexivity..|].
  intros l1 l2 Hl. vm_compute in Hl.
  destruct l1 as [|a [|b l1]]; simplify_eq; vm_compute; reflexivity.
Defined.

Lemma write_points_cells_call_witness :
  let call :=
    WriteCall off (BufferObj 0) triangle_mesh [] {[ "n" := PyInt 1 ]} in
  write_points_cells buffers_only shapes (BufferObj 0) (block 3 2)
    [("triangle", block 1 3)] None None None (Some "off") {[ "n" := PyInt 1 ]} =
    Ok call /\
  cells (wc_mesh call) = [("triangle", block 1 3)].
Proof.
  intros call.
  assert (write_points_cells buffers_only shapes (BufferObj 0) (block 3 2)
            [("triangle", block 1 3)] None None None (Some "off")
            {[ "n" := PyInt 1 ]} = Ok call) as Hcall
    by (vm_compute; reflexivity).
  split; [exact Hcall|].
  by destruct (write_points_cells_call buffers_only shapes _ _ _ _ _ _ _ _
                 call Hcall) as (_ & _ & Hcells & _).
Defined.

(** ** Reading *)

Section Reading.

Context (is_buffer : file_arg -> string -> bool)
        (path_exists : string -> bool).

Lemma read_existing_path path file_format :
  is_buffer (PathStr path) "r" = false ->
  path_exists path = true ->
  read is_buffer path_exists (PathStr path) file_format =
  match (if falsy file_format then _filetype_from_path path
         else Ok (default "" file_format)) with
  | Raise e => Raise e
  | Ok ff =>
      match format_to_reader !! ff with
      | None =>
          Raise (ReadError
            ("Unknown file format '" +:+ ff +:+ "' of '" +:+ path +:+ "'."))
      | Some b => Ok (ReadCall b (PathStr path))
      end
  end.
Proof.
  intros Hbuf Hex. unfold read. rewrite Hbuf.
  cbn [pathlib.Path mbind result_bind]. rewrite Hex. cbn [negb].
  by destruct (if falsy file_format then _ else _) as [ff|e].
Qed.

(** X11.  [read] of an existing path without a format identifier calls
    the reader of the backend that the inferred identifier names, with
    the path as it was given; the one exception is an inferred [svg],
    which has no reader and raises the unknown-format [ReadError]. *)
Theorem read_inferred path file_format ft :
  is_buffer (PathStr path) "r" = false ->
  path_exists path = true ->
  falsy file_format = true ->
  _filetype_from_path path = Ok ft ->
  (ft <> "svg" ->
   exists b, format_to_reader !! ft = Some b /\
     read is_buffer path_exists (PathStr path) file_format =
     Ok (ReadCall b (PathStr path))) /\
  (ft = "svg" ->
   read is_buffer path_exists (PathStr path) file_format =
   Raise (ReadError ("Unknown file format 'svg' of '" +:+ path +:+ "'."))).
Proof.
  intros Hbuf Hex Hfalsy Hft. rewrite read_existing_path, Hfalsy, Hft by done.
  apply inferred_is_value in Hft. pose proof extension_values_registered as Hall.
  rewrite Forall_forall in Hall. destruct (Hall _ Hft) as [_ Hreader].
  rewrite <- reader_keys in Hreader. split.
  - intros [b Hb]%Hreader. rewrite Hb. by exists b.
  - intros ->. by destruct (format_to_reader !! "svg") eqn:Hsvg;
      [destruct (proj1 Hreader); eauto|].
Qed.

(** X12.  An explicit identifier that is no key of the reader table makes
    [read] raise a [ReadError]: for an existing path the message names
    the identifier and the path, for a buffer the identifier only. *)
Theorem read_unknown_format filename ff :
  format_to_reader !! ff = None ->
  (is_buffer filename "r" = true ->
   read is_buffer path_exists filename (Some ff) =
   Raise (ReadError ("Unknown file format '" +:+ ff +:+ "'"))) /\
  (forall path,
     filename = PathStr path -> is_buffer filename "r" = false ->
     path_exists path = true -> ff <> "" ->
     read is_buffer path_exists filename (Some ff) =
     Raise (ReadError
       ("Unknown file format '" +:+ ff +:+ "' of '" +:+ path +:+ "'."))).
Proof.
  intros Hnone. split.
  - intros Hbuf. unfold read. rewrite Hbuf.
    rewrite bool_decide_eq_false_2.
    + cbn [mbind result_bind]. by rewrite Hnone.
    + intros ->. revert Hnone. unfold format_to_reader. eval_lookup. done.
  - intros path -> Hbuf Hex Hff. rewrite read_existing_path by done.
    cbn [falsy]. rewrite bool_decide_eq_false_2 by done.
    change (default "" (Some ff)) with ff. cbv beta iota.
    by rewrite Hnone.
Qed.

(** X13.  On a path given as a string, [read] raises nothing but
    [ReadError], whatever [is_buffer] and the file system answer. *)
Theorem read_raises_ReadError path file_format e :
  read is_buffer path_exists (PathStr path) file_format = Raise e ->
  exists msg, e = ReadError msg.
Proof.
  unfold read. destruct (is_buffer (PathStr path) "r").
  - destruct file_format as [ff|]; [|intros [= <-]; eauto].
    case_bool_decide; [intros [= <-]; eauto|].
    cbn [mbind result_bind].
    destruct (format_to_reader !! ff); [done|intros [= <-]; eauto].
  - cbn [pathlib.Path mbind result_bind].
    destruct (path_exists path); cbn [negb]; [|intros [= <-]; eauto].
    destruct (falsy file_format).
    + rewrite filetype_from_scan.
      destruct (scan (pathlib.suffixes path)).2 as [ft|];
        cbn [mbind result_bind]; [|intros [= <-]; eauto].
      destruct (format_to_reader !! ft); [done|intros [= <-]; eauto].
    + cbn [mbind result_bind].
      destruct (format_to_reader !! _); [done|intros [= <-]; eauto].
Qed.

End Reading.

Lemma read_inferred_witness :
  read buffers_only all_files (PathStr "wing.msh") None =
    Ok (ReadCall gmsh (PathStr "wing.msh")) /\
  read buffers_only all_files (PathStr "drawing.svg") None =
    Raise (ReadError "Unknown file format 'svg' of 'drawing.svg'.").
Proof.
  split.
  - destruct (proj1 (read_inferred buffers_only all_files "wing.msh" None
        "gmsh4-binary" eq_refl eq_refl eq_refl
        ltac:(vm_compute; reflexivity))) as (b & Hb & Hread).
    + discriminate.
    + rewrite Hread. vm_compute in Hb. by injection Hb as <-.
  - apply (proj2 (read_inferred buffers_only all_files "drawing.svg" None
        "svg" eq_refl eq_refl eq_refl ltac:(vm_compute; reflexivity))).
    reflexivity.
Defined.

Lemma read_unknown_format_witness :
  read buffers_only all_files (BufferObj 3) (Some "svg") =
    Raise (ReadError ("Unknown file format '" +:+ "svg" +:+ "'")) /\
  read buffers_only all_files (PathStr "a.vtk") (Some "vtk") =
    Raise (ReadError
      ("Unknown file format '" +:+ "vtk" +:+ "' of '" +:+ "a.vtk" +:+ "'.")).
Proof.
  split.
  - apply (proj1 (read_unknown_format buffers_only all_files (BufferObj 3)
        "svg" ltac:(vm_compute; reflexivity))). reflexivity.
  - apply (proj2 (read_unknown_format buffers_only all_files (PathStr "a.vtk")
        "vtk" ltac:(vm_compute; reflexivity)) "a.vtk"); try reflexivity.
    discriminate.
Defined.

Lemma read_raises_ReadError_witness :
  exists msg, ReadError "File mesh.vtk not found." = ReadError msg.
Proof.
  apply (read_raises_ReadError buffers_only no_files "mesh.vtk" None).
  vm_compute. reflexivity.
Defined.

(** ** Odd arguments *)

Section Edge.

Context (is_buffer : file_arg -> string -> bool)
        (path_exists : string -> bool)
        (num_nodes_per_cell : gmap string nat).

(** X14.  On a path the empty identifier counts as no identifier: [read]
    and [write] infer the format from the extension.  On a buffer it is
    an identifier like any other, and an unknown one. *)
Theorem empty_format_identifier filename mesh kwargs :
  (is_buffer filename "r" = false ->
   read is_buffer path_exists filename (Some "") =
     read is_buffer path_exists filename None /\
   write is_buffer num_nodes_per_cell filename mesh (Some "") kwargs =
     write is_buffer num_nodes_per_cell filename mesh None kwargs) /\
  (is_buffer filename "r" = true ->
   read is_buffer path_exists filename (Some "") =
     Raise (ReadError "Unknown file format ''") /\
   write is_buffer num_nodes_per_cell filename mesh (Some "") kwargs =
     Raise (KeyError ("Unknown format '" +:+ "" +:+ "'. Pick one of " +:+
                      Str.repr_list (Str.sorted _writer_map_keys)))).
Proof.
  split; intros Hbuf; unfold read, write, write_format; rewrite Hbuf.
  - cbn [falsy]. rewrite bool_decide_eq_true_2 by done.
    split; reflexivity.
  - split.
    + rewrite bool_decide_eq_false_2 by done. cbn [mbind result_bind].
      unfold format_to_reader. by eval_lookup.
    + rewrite bool_decide_eq_false_2 by done. cbn [mbind result_bind].
      unfold _writer_map. eval_lookup. reflexivity.
Qed.

(** X15.  An object that is neither a string nor an [os.PathLike] and
    that [is_buffer] does not accept for mode ["r"] is handed to
    [pathlib.Path]: [read] and [write] raise its [TypeError], whatever
    format identifier is given.  An [os.PathLike] object that [is_buffer]
    does not accept is taken for the path it names: [write] resolves its
    format as for the string of that path. *)
Theorem unaccepted_object id mesh file_format kwargs :
  (is_buffer (BufferObj id) "r" = false ->
   read is_buffer path_exists (BufferObj id) file_format =
     Raise (TypeError NotPathLike) /\
   write is_buffer num_nodes_per_cell (BufferObj id) mesh file_format kwargs =
     Raise (TypeError NotPathLike)) /\
  (forall fspath shown,
     is_buffer (PathLike fspath shown) "r" = false ->
     is_buffer (PathStr fspath) "r" = false ->
     write_format is_buffer (PathLike fspath shown) file_format =
     write_format is_buffer (PathStr fspath) file_format).
Proof.
  split.
  - intros Hbuf. unfold read, write, write_format. by rewrite Hbuf.
  - intros fspath shown Hlike Hstr. unfold write_format.
    by rewrite Hlike, Hstr.
Qed.

End Edge.

Lemma empty_format_identifier_witness :
  read buffers_only all_files (PathStr "a.vtk") (Some "") =
    read buffers_only all_files (PathStr "a.vtk") None /\
  read buffers_only all_files (BufferObj 0) (Some "") =
    Raise (ReadError "Unknown file format ''").
Proof.
  destruct (empty_format_identifier buffers_only all_files shapes
              (PathStr "a.vtk") triangle_mesh ∅) as [Hpath _].
  destruct (empty_format_identifier buffers_only all_files shapes
              (BufferObj 0) triangle_mesh ∅) as [_ Hbuf].
  split; [apply Hpath | apply Hbuf]; reflexivity.
Defined.

Lemma unaccepted_object_witness :
  write readable_only shapes (BufferObj 1) triangle_mesh (Some "vtk-ascii") ∅ =
  Raise (TypeError NotPathLike).
Proof.
  apply (proj1 (unaccepted_object readable_only no_files shapes 1
                  triangle_mesh (Some "vtk-ascii") ∅) eq_refl).
Defined.
